(** * A shallow embedding of [AppEventWatcher]
    (packages/app/src/cli/services/dev/app-events/app-event-watcher.ts).

    The watcher is a class whose fields are mutated across [await] points.
    We model it as a record [Watcher] threaded through a state-and-exception
    monad [M]: a rejected promise is [Throw msg] (the [message] of the
    thrown [Error]), and the state reached before the rejection persists, as
    it does for JS field mutations.  Calls to collaborators (file system,
    esbuild contexts, bundle builds, listeners) are appended to the [trace]
    field so that their number and arguments can be inspected. *)

From Stdlib Require Import String List Bool Arith Lia.
Import ListNotations.
Open Scope string_scope.
Open Scope list_scope.

(** ** Data model *)

(** [ExtensionInstance]: only the members the watcher reads. *)
Record ExtensionInstance := mkExtension {
  handle : string;
  outputFolderId : string;       (* ext.getOutputFolderId() *)
  isESBuildExtension : bool
}.

(** [AppLinkedInterface]: only the members the watcher reads. *)
Record AppLinkedInterface := mkApp {
  directory : string;
  realExtensions : list ExtensionInstance
}.

(** [enum EventType] *)
Inductive EventType := Updated | Deleted | Created.

Definition EventType_eqb (a b : EventType) : bool :=
  match a, b with
  | Updated, Updated | Deleted, Deleted | Created, Created => true
  | _, _ => false
  end.

Record ExtensionEvent := mkExtensionEvent {
  type : EventType;
  extension : ExtensionInstance
}.

Record AppEvent := mkAppEvent {
  ev_app : AppLinkedInterface;
  extensionEvents : list ExtensionEvent;
  ev_path : string;
  startTime : nat * nat
}.

(** [type ExtensionBuildResult = {status:'ok'; handle} | {status:'error'; error; handle}] *)
Inductive ExtensionBuildResult :=
| BuildOk (handle : string)
| BuildError (error : string) (handle : string).

Definition result_handle (r : ExtensionBuildResult) : string :=
  match r with BuildOk h => h | BuildError _ h => h end.

(** Calls made to collaborators, in the order the model issues them.
    Listeners are identified by numbers. *)
Inductive Effect :=
| EFileExists (p : string)
| ERmdir (p : string)
| EMkdir (p : string)
| ECreateContexts (exts : list ExtensionInstance)
| EUpdateContexts (ev : AppEvent)
| ERebuild (h : string)                 (* contexts[h].rebuild() *)
| EBuildForBundle (h : string)          (* ext.buildForBundle(...) *)
| EStartFileWatcher
| EOutputDebug (msg : string)
| EStderr (msg : string)
| ECallReady (l : nat)                  (* a 'ready' listener invoked *)
| ECallAll (l : nat) (ev : AppEvent).   (* an 'all' listener invoked *)

(** The fields of the class, plus the file system, the esbuild context
    table, the listener tables of the [EventEmitter] and the trace.
    [start_pending] records that the first [start()] call has passed its
    synchronous prefix and its body is suspended at its first [await]. *)
Record Watcher := mkWatcher {
  buildOutputPath : string;
  app : AppLinkedInterface;
  started : bool;
  ready : bool;
  start_pending : bool;
  watching : bool;                      (* the file-watcher callback is installed *)
  contexts : list string;               (* handles with a live esbuild context *)
  fs : list string;                     (* directories present on disk *)
  ready_listeners : list nat;           (* listeners of 'ready', in order *)
  all_listeners : list nat;             (* listeners of 'all', in order *)
  trace : list Effect
}.

Definition set_app (s : Watcher) (a : AppLinkedInterface) : Watcher :=
  {| buildOutputPath := buildOutputPath s; app := a; started := started s;
     ready := ready s; start_pending := start_pending s; watching := watching s;
     contexts := contexts s; fs := fs s; ready_listeners := ready_listeners s;
     all_listeners := all_listeners s; trace := trace s |}.

Definition set_started (s : Watcher) (b : bool) : Watcher :=
  {| buildOutputPath := buildOutputPath s; app := app s; started := b;
     ready := ready s; start_pending := start_pending s; watching := watching s;
     contexts := contexts s; fs := fs s; ready_listeners := ready_listeners s;
     all_listeners := all_listeners s; trace := trace s |}.

Definition set_ready (s : Watcher) (b : bool) : Watcher :=
  {| buildOutputPath := buildOutputPath s; app := app s; started := started s;
     ready := b; start_pending := start_pending s; watching := watching s;
     contexts := contexts s; fs := fs s; ready_listeners := ready_listeners s;
     all_listeners := all_listeners s; trace := trace s |}.

Definition set_start_pending (s : Watcher) (b : bool) : Watcher :=
  {| buildOutputPath := buildOutputPath s; app := app s; started := started s;
     ready := ready s; start_pending := b; watching := watching s;
     contexts := contexts s; fs := fs s; ready_listeners := ready_listeners s;
     all_listeners := all_listeners s; trace := trace s |}.

Definition set_watching (s : Watcher) (b : bool) : Watcher :=
  {| buildOutputPath := buildOutputPath s; app := app s; started := started s;
     ready := ready s; start_pending := start_pending s; watching := b;
     contexts := contexts s; fs := fs s; ready_listeners := ready_listeners s;
     all_listeners := all_listeners s; trace := trace s |}.

Definition set_contexts (s : Watcher) (c : list string) : Watcher :=
  {| buildOutputPath := buildOutputPath s; app := app s; started := started s;
     ready := ready s; start_pending := start_pending s; watching := watching s;
     contexts := c; fs := fs s; ready_listeners := ready_listeners s;
     all_listeners := all_listeners s; trace := trace s |}.

Definition set_fs (s : Watcher) (f : list string) : Watcher :=
  {| buildOutputPath := buildOutputPath s; app := app s; started := started s;
     ready := ready s; start_pending := start_pending s; watching := watching s;
     contexts := contexts s; fs := f; ready_listeners := ready_listeners s;
     all_listeners := all_listeners s; trace := trace s |}.

Definition set_ready_listeners (s : Watcher) (ls : list nat) : Watcher :=
  {| buildOutputPath := buildOutputPath s; app := app s; started := started s;
     ready := ready s; start_pending := start_pending s; watching := watching s;
     contexts := contexts s; fs := fs s; ready_listeners := ls;
     all_listeners := all_listeners s; trace := trace s |}.

Definition set_all_listeners (s : Watcher) (ls : list nat) : Watcher :=
  {| buildOutputPath := buildOutputPath s; app := app s; started := started s;
     ready := ready s; start_pending := start_pending s; watching := watching s;
     contexts := contexts s; fs := fs s; ready_listeners := ready_listeners s;
     all_listeners := ls; trace := trace s |}.

Definition set_trace (s : Watcher) (t : list Effect) : Watcher :=
  {| buildOutputPath := buildOutputPath s; app := app s; started := started s;
     ready := ready s; start_pending := start_pending s; watching := watching s;
     contexts := contexts s; fs := fs s; ready_listeners := ready_listeners s;
     all_listeners := all_listeners s; trace := t |}.

(** ** The promise monad: state passing with rejections *)

Inductive Res (A : Type) : Type :=
| Ok (a : A)
| Throw (msg : string).
Arguments Ok {A} a.
Arguments Throw {A} msg.

Definition M (A : Type) : Type := Watcher -> Res A * Watcher.

Definition ret {A} (a : A) : M A := fun s => (Ok a, s).

Definition bind {A B} (m : M A) (k : A -> M B) : M B := fun s =>
  match m s with
  | (Ok a, s') => k a s'
  | (Throw e, s') => (Throw e, s')
  end.

Definition throw {A} (msg : string) : M A := fun s => (Throw msg, s).

Definition lift {A} (r : Res A) : M A := fun s => (r, s).

(** [try { m } catch (error) { h(error.message) }] *)
Definition try_catch {A} (m : M A) (h : string -> M A) : M A := fun s =>
  match m s with
  | (Ok a, s') => (Ok a, s')
  | (Throw e, s') => h e s'
  end.

Definition gets {A} (f : Watcher -> A) : M A := fun s => (Ok (f s), s).

Definition modify (f : Watcher -> Watcher) : M unit := fun s => (Ok tt, f s).

Definition record (e : Effect) : M unit :=
  modify (fun s => set_trace s (trace s ++ [e])).

Declare Scope promise_scope.
Delimit Scope promise_scope with promise.
Notation "x <- m ;; k" := (bind m (fun x => k))
  (at level 61, m at next level, right associativity) : promise_scope.
Notation "m ;; k" := (bind m (fun _ => k))
  (at level 61, right associativity) : promise_scope.
Open Scope promise_scope.

(** [Promise.all(ps)] over promises that have all been created: every task
    runs to completion (a rejection does not stop the others); the combined
    promise rejects with the first rejection in list order, else resolves
    with the results in input order.  The tasks are run one after the other:
    in [buildExtensions] and [deleteExtensionsBuildOutput] the concurrent
    tasks only read the output root and the context table, which none of
    them changes, append to the trace, and add or remove directories, so
    their results do not depend on how they interleave; only the order of
    the trace entries does. *)
Fixpoint settle_all {A} (ms : list (M A)) : M (list (Res A)) :=
  match ms with
  | [] => ret []
  | m :: rest => fun s =>
      let '(r, s1) := m s in
      match settle_all rest s1 with
      | (Ok rs, s2) => (Ok (r :: rs), s2)
      | (Throw e, s2) => (Throw e, s2)
      end
  end.

Fixpoint collect {A} (rs : list (Res A)) : Res (list A) :=
  match rs with
  | [] => Ok []
  | Throw e :: _ => Throw e
  | Ok a :: rest =>
      match collect rest with
      | Ok l => Ok (a :: l)
      | Throw e => Throw e
      end
  end.

Definition promise_all {A} (ms : list (M A)) : M (list A) :=
  rs <- settle_all ms ;; lift (collect rs).

(** ** Collaborators from cli-kit *)

Definition newline : string := String (Ascii.ascii_of_nat 10) EmptyString.

(** Modelled from the spec: [joinPath] of cli-kit's [node/path], the
    deterministic join of the output root and a folder id. *)
Definition joinPath (a b : string) : string := (a ++ "/" ++ b)%string.

(** [p] is [q] or lies below it. *)
Definition under (q p : string) : bool :=
  String.eqb p q || String.prefix (q ++ "/")%string p.

(** Modelled from the spec: [fileExists] of cli-kit's [node/fs]; it
    answers whether the path is present and does not reject. *)
Definition fileExists (p : string) : M bool :=
  record (EFileExists p) ;; gets (fun s => existsb (String.eqb p) (fs s)).

(** Modelled from the spec: [rmdir(p, {force: true})] of cli-kit's
    [node/fs], the forced removal of section 4.3: removes [p] and
    everything below it; removing a directory that does not exist is not
    an error. *)
Definition rmdir (p : string) : M unit :=
  record (ERmdir p) ;;
  modify (fun s => set_fs s (filter (fun q => negb (under p q)) (fs s))).

(** A directory written to the disk: it is added unless already present. *)
Definition add_dir (f : list string) (d : string) : list string :=
  if existsb (String.eqb d) f then f else f ++ [d].

Definition add_dirs (ds : list string) (f : list string) : list string :=
  fold_left add_dir ds f.

Definition write_dirs (ds : list string) : M unit :=
  modify (fun s => set_fs s (add_dirs ds (fs s))).

(** Modelled from the spec: [useConcurrentOutputContext] of cli-kit's
    [node/ui/components] opens one output scope per artifact (prefix =
    handle, no ANSI stripping) and runs the callback in it; the scope is
    presentational, so the callback's promise is returned unchanged. *)
Definition useConcurrentOutputContext {A} (outputPrefix : string) (stripAnsi : bool)
  (callback : M A) : M A := callback.

(** ** The watcher *)

Section AppEventWatcher.

(** The collaborators of other modules, given by their outcomes.
    - [buildForBundle_result ext]: [None] when [ext.buildForBundle(...)]
      resolves, [Some m] when it rejects with [Error(m)];
    - [buildForBundle_output ext root]: the directories that
      [ext.buildForBundle(options, root)] writes (whatever its outcome);
    - [rebuild_result h]: [esbuildManager.contexts[h].rebuild()] resolves
      with the texts of its reported [errors], or rejects with a message;
    - [rebuild_output h]: the directories that this rebuild writes;
    - [createContexts_result exts]: the handles that get a live esbuild
      context from [esbuildManager.createContexts(exts)], or a rejection;
    - [updateContexts_result ev old]: the table of live contexts once
      [esbuildManager.updateContexts(ev)] has settled, which it may have
      changed in part before rejecting, and [None] when it resolves or
      [Some m] when it rejects with [Error(m)];
    - [mkdir_result p]: [None] when cli-kit's [mkdir(p)] creates the
      directory, [Some m] when it rejects with [Error(m)];
    - [startFileWatcher_result]: [None] when [startFileWatcher] resolves
      with the callback installed, [Some m] when it rejects. *)
Record Collaborators := mkCollaborators {
  buildForBundle_result : ExtensionInstance -> option string;
  buildForBundle_output : ExtensionInstance -> string -> list string;
  rebuild_result : string -> Res (list string);
  rebuild_output : string -> list string;
  createContexts_result : list ExtensionInstance -> Res (list string);
  updateContexts_result : AppEvent -> list string -> list string * option string;
  mkdir_result : string -> option string;
  startFileWatcher_result : option string
}.

Variable env : Collaborators.

(** Modelled from the spec: [mkdir] of cli-kit's [node/fs]; its failure
    is the start-time error of section 7. *)
Definition mkdir (p : string) : M unit :=
  record (EMkdir p) ;;
  match mkdir_result env p with
  | None => modify (fun s => set_fs s (add_dir (fs s) p))
  | Some m => throw m
  end.

(** [startFileWatcher(this.app, this.options, callback)]. *)
Definition startFileWatcher : M unit :=
  record EStartFileWatcher ;;
  match startFileWatcher_result env with
  | None => ret tt
  | Some m => throw m
  end.

Definition createContexts (exts : list ExtensionInstance) : M unit :=
  record (ECreateContexts exts) ;;
  c <- lift (createContexts_result env exts) ;;
  modify (fun s => set_contexts s c).

(** [esbuildManager.updateContexts(appEvent)]: the manager changes its
    table of live contexts step by step, so when it rejects the table is
    whatever it had reached. *)
Definition updateContexts (ev : AppEvent) : M unit :=
  record (EUpdateContexts ev) ;;
  old <- gets contexts ;;
  let '(c, outcome) := updateContexts_result env ev old in
  modify (fun s => set_contexts s c) ;;
  match outcome with
  | None => ret tt
  | Some m => throw m
  end.

(** [contexts[h]?.rebuild()]: it writes its output under the output root
    whatever its outcome. *)
Definition rebuild (h : string) : M (list string) :=
  record (ERebuild h) ;;
  write_dirs (rebuild_output env h) ;;
  lift (rebuild_result env h).

(** [private async buildExtension(extension)]:
    [extension.buildForBundle(buildOptions, this.buildOutputPath)]. *)
Definition buildExtension (extension : ExtensionInstance) : M unit :=
  record (EBuildForBundle (handle extension)) ;;
  root <- gets buildOutputPath ;;
  write_dirs (buildForBundle_output env extension root) ;;
  match buildForBundle_result env extension with
  | None => ret tt
  | Some m => throw m
  end.

Definition has_context (h : string) : M bool :=
  gets (fun s => existsb (String.eqb h) (contexts s)).

(** The async closure mapped over the extensions in [buildExtensions]. *)
Definition buildExtensionTask (ext : ExtensionInstance) : M ExtensionBuildResult :=
  useConcurrentOutputContext (handle ext) false
    (try_catch
       (live <- has_context (handle ext) ;;
        (if live then
           errors <- rebuild (handle ext) ;;
           (if negb (Nat.eqb (length errors) 0)
            then throw (String.concat newline errors)
            else ret tt)
         else buildExtension ext) ;;
        ret (BuildOk (handle ext)))
       (fun message => ret (BuildError message (handle ext)))).

(** [private async buildExtensions(extensions)] *)
Definition buildExtensions (extensions : list ExtensionInstance)
  : M (list ExtensionBuildResult) :=
  promise_all (map buildExtensionTask extensions).

(** [private async deleteExtensionsBuildOutput(extensions)] *)
Definition deleteExtensionsBuildOutput (extensions : list ExtensionInstance) : M unit :=
  root <- gets buildOutputPath ;;
  _ <- promise_all (map (fun ext => rmdir (joinPath root (outputFolderId ext))) extensions) ;;
  ret tt.

(** [this.emit(name, ...)] of the [EventEmitter]: every listener of the
    event is called synchronously, in registration order. *)
Definition emit_ready : M unit :=
  ls <- gets ready_listeners ;;
  _ <- promise_all (map (fun l => record (ECallReady l)) ls) ;;
  ret tt.

Definition emit_all (ev : AppEvent) : M unit :=
  ls <- gets all_listeners ;;
  _ <- promise_all (map (fun l => record (ECallAll l ev)) ls) ;;
  ret tt.


(** The callback given to [startFileWatcher]: [handleWatcherEvents(...)]
    settles to [appEvent_result], then the [.then(...)] body runs and any
    rejection of the chain is written to stderr by [.catch(...)]. *)
Definition handleBatch (appEvent_result : Res (option AppEvent)) : M unit :=
  try_catch
    (appEvent <- lift appEvent_result ;;
     match appEvent with
     | None => ret tt
     | Some ev =>
         modify (fun s => set_app s (ev_app ev)) ;;
         (if Nat.eqb (length (extensionEvents ev)) 0 then
            record (EOutputDebug "Change detected, but no extensions were affected")
          else
            (updateContexts ev ;;
             let createdOrUpdatedExtensions :=
               map extension
                 (filter (fun e => negb (EventType_eqb (type e) Deleted)) (extensionEvents ev)) in
             _ <- buildExtensions createdOrUpdatedExtensions ;;
             let deletedExtensions :=
               map extension
                 (filter (fun e => EventType_eqb (type e) Deleted) (extensionEvents ev)) in
             deleteExtensionsBuildOutput deletedExtensions ;;
             emit_all ev))
     end)
    (fun message => record (EStderr ("Error handling event: " ++ message)%string)).

(** [async start()], split at its first [await]: [start_call] is the
    synchronous prefix every call runs ([if (this.started) return;
    this.started = true]), [start_body] is the rest, which only the first
    call reaches. *)
Definition start_call : M unit :=
  st <- gets started ;;
  (if st then ret tt
   else modify (fun s => set_started s true) ;;
        modify (fun s => set_start_pending s true)).

Definition start_body : M unit :=
  root <- gets buildOutputPath ;;
  ex <- fileExists root ;;
  (if ex then rmdir root else ret tt) ;;
  mkdir root ;;
  exts <- gets (fun s => realExtensions (app s)) ;;
  createContexts (filter isESBuildExtension exts) ;;
  exts' <- gets (fun s => realExtensions (app s)) ;;
  _ <- buildExtensions exts' ;;
  startFileWatcher ;;
  modify (fun s => set_watching s true) ;;
  modify (fun s => set_ready s true) ;;
  emit_ready.

(** The suspended body of the first [start()] call resumes. *)
Definition resume_start : M unit :=
  p <- gets start_pending ;;
  (if p then modify (fun s => set_start_pending s false) ;; start_body
   else ret tt).

(** [onEvent(listener)]: [this.addListener('all', listener)]. *)
Definition onEvent (listener : nat) : M unit :=
  modify (fun s => set_all_listeners s (all_listeners s ++ [listener])).

(** [onStart(listener)]: [this.addListener('ready', listener);
    if (this.ready) this.emit('ready')]. *)
Definition onStart (listener : nat) : M unit :=
  modify (fun s => set_ready_listeners s (ready_listeners s ++ [listener])) ;;
  r <- gets ready ;;
  (if r then emit_ready else ret tt).

(** The operations a session interleaves: calls of [start()], resumption
    of the suspended first [start()], listener registrations, and batches
    delivered by the file watcher once its callback is installed. *)
Inductive Op :=
| OpStart
| OpResumeStart
| OpOnStart (listener : nat)
| OpOnEvent (listener : nat)
| OpBatch (appEvent_result : Res (option AppEvent)).

Definition step (op : Op) : M unit :=
  match op with
  | OpStart => start_call
  | OpResumeStart => resume_start
  | OpOnStart l => onStart l
  | OpOnEvent l => onEvent l
  | OpBatch r => w <- gets watching ;; (if w then handleBatch r else ret tt)
  end.

Fixpoint run (ops : list Op) (s : Watcher) : Watcher :=
  match ops with
  | [] => s
  | op :: rest => run rest (snd (step op s))
  end.

End AppEventWatcher.

(** [new AppEventWatcher(app, appURL, options, buildOutputPath)] over a
    disk holding the directories [disk]. *)
Definition new_watcher (a : AppLinkedInterface) (buildOutputPath_opt : option string)
  (disk : list string) : Watcher :=
  {| buildOutputPath :=
       match buildOutputPath_opt with
       | Some p => p
       | None => joinPath (joinPath (directory a) ".shopify") "bundle"
       end;
     app := a; started := false; ready := false; start_pending := false;
     watching := false; contexts := []; fs := disk; ready_listeners := [];
     all_listeners := []; trace := [] |}.

(** ** Concrete collaborators and inputs used by the examples below *)

Definition extA := mkExtension "a" "a-id" false.
Definition extB := mkExtension "b" "b-id" true.
Definition extC := mkExtension "c" "c-id" false.
Definition extX := mkExtension "x" "x-id" false.
Definition extY := mkExtension "y" "y-id" false.
Definition extRej := mkExtension "rej" "rej-id" true.

(** [x]'s bundle build rejects with [Error("boom")]; [rej]'s esbuild
    rebuild rejects; [bad]'s rebuild reports two errors.  Every build
    writes the extension's folder below the output root. *)
Definition sample_env : Collaborators :=
  {| buildForBundle_result := fun e => if String.eqb (handle e) "x" then Some "boom" else None;
     buildForBundle_output := fun e root => [joinPath root (outputFolderId e)];
     rebuild_result := fun h =>
       if String.eqb h "rej" then Throw "Build failed with 1 error"
       else if String.eqb h "bad" then Ok ["e1"; "e2"] else Ok [];
     rebuild_output := fun h => [joinPath "/app/.shopify/bundle" (h ++ "-id")%string];
     createContexts_result := fun exts => Ok (map handle exts);
     updateContexts_result := fun _ old => (old, None);
     mkdir_result := fun _ => None;
     startFileWatcher_result := None |}.

Definition sample_app := mkApp "/app" [extA; extB; extC].

Definition sample_watcher := new_watcher sample_app None ["/app/.shopify/bundle"; "/app/.shopify/bundle/old"].

(** A batch creating [a], updating [b] and deleting [c]. *)
Definition batch_cud : AppEvent :=
  mkAppEvent sample_app
    [mkExtensionEvent Created extA; mkExtensionEvent Updated extB; mkExtensionEvent Deleted extC]
    "/app/extensions" (0, 0).

(** A batch with no extension event. *)
Definition batch_empty : AppEvent := mkAppEvent (mkApp "/app" [extA]) [] "/app/README.md" (0, 0).

(** The watcher once [start()] has completed, with listener 1 registered. *)
Definition ready_watcher : Watcher :=
  run sample_env [OpOnStart 1; OpOnEvent 7; OpStart; OpResumeStart] sample_watcher.

(** Collaborators whose esbuild context creation rejects, and whose
    context update rejects after disposing of every context. *)
Definition failing_env : Collaborators :=
  {| buildForBundle_result := fun _ => None;
     buildForBundle_output := fun e root => [joinPath root (outputFolderId e)];
     rebuild_result := fun _ => Ok [];
     rebuild_output := fun _ => [];
     createContexts_result := fun _ => Throw "esbuild failed to start";
     updateContexts_result := fun _ _ => ([], Some "esbuild failed to update");
     mkdir_result := fun _ => None;
     startFileWatcher_result := None |}.


(** A disk with a stale output root, one directory below it and an
    unrelated directory. *)
Definition start_disk : list string :=
  ["/app/.shopify/bundle"; "/app/.shopify/bundle/old"; "/app/extensions"].

(** ** Auxiliary definitions for stating the properties *)

(** Whether an extension has a live esbuild context in a context table. *)
Definition live (ctxs : list string) (ext : ExtensionInstance) : bool :=
  existsb (String.eqb (handle ext)) ctxs.

(** The collaborator call a build task makes. *)
Definition build_effect (ctxs : list string) (ext : ExtensionInstance) : Effect :=
  if live ctxs ext then ERebuild (handle ext) else EBuildForBundle (handle ext).

(** The directories a build task writes. *)
Definition build_writes (env : Collaborators) (ctxs : list string) (root : string)
  (ext : ExtensionInstance) : list string :=
  if live ctxs ext then rebuild_output env (handle ext) else buildForBundle_output env ext root.

(** The result a build task produces, case by case on its collaborator. *)
Definition task_result (env : Collaborators) (ctxs : list string)
  (ext : ExtensionInstance) : ExtensionBuildResult :=
  if live ctxs ext then
    match rebuild_result env (handle ext) with
    | Ok [] => BuildOk (handle ext)
    | Ok errors => BuildError (String.concat newline errors) (handle ext)
    | Throw m => BuildError m (handle ext)
    end
  else
    match buildForBundle_result env ext with
    | None => BuildOk (handle ext)
    | Some m => BuildError m (handle ext)
    end.

(** Handles built, directories removed and listener calls in a trace. *)
Definition built_handles (t : list Effect) : list string :=
  flat_map (fun e => match e with
                     | ERebuild h | EBuildForBundle h => [h]
                     | _ => []
                     end) t.

Definition removed_dirs (t : list Effect) : list string :=
  flat_map (fun e => match e with ERmdir p => [p] | _ => [] end) t.

Definition all_calls (t : list Effect) : list (nat * AppEvent) :=
  flat_map (fun e => match e with ECallAll l ev => [(l, ev)] | _ => [] end) t.

Definition ready_calls (l : nat) (t : list Effect) : nat :=
  length (filter (fun e => match e with ECallReady l' => Nat.eqb l l' | _ => false end) t).

(** The calls [start()] makes before its initial build. *)
Definition passive (e : Effect) : bool :=
  match e with
  | EFileExists _ | ERmdir _ | EMkdir _ | ECreateContexts _ => true
  | _ => false
  end.

(** ** Lemmas about the monad and the collaborators *)

Lemma set_trace_twice (s : Watcher) (t t' : list Effect) :
  set_trace (set_trace s t) t' = set_trace s t'.
Proof. destruct s; reflexivity. Qed.

Lemma record_eq (e : Effect) (s : Watcher) :
  record e s = (Ok tt, set_trace s (trace s ++ [e])).
Proof. reflexivity. Qed.

Lemma settle_all_records {X} (f : X -> Effect) (xs : list X) (s : Watcher) :
  settle_all (map (fun x => record (f x)) xs) s
  = (Ok (map (fun _ => Ok tt) xs), set_trace s (trace s ++ map f xs)).
Proof.
  revert s; induction xs as [|x xs IH]; intros s; cbn [settle_all map].
  - rewrite app_nil_r; destruct s; reflexivity.
  - rewrite record_eq, IH, set_trace_twice; simpl.
    rewrite <- app_assoc; reflexivity.
Qed.

Lemma collect_units {X} (xs : list X) :
  collect (map (fun _ => Ok tt) xs) = Ok (map (fun _ => tt) xs).
Proof. induction xs as [|x xs IH]; simpl; [|rewrite IH]; reflexivity. Qed.

Lemma emit_ready_eq (s : Watcher) :
  emit_ready s = (Ok tt, set_trace s (trace s ++ map ECallReady (ready_listeners s))).
Proof.
  unfold emit_ready, promise_all, bind, gets, lift, ret.
  rewrite (settle_all_records ECallReady), collect_units; reflexivity.
Qed.

Lemma emit_all_eq (ev : AppEvent) (s : Watcher) :
  emit_all ev s
  = (Ok tt, set_trace s (trace s ++ map (fun l => ECallAll l ev) (all_listeners s))).
Proof.
  unfold emit_all, promise_all, bind, gets, lift, ret.
  rewrite (settle_all_records (fun l => ECallAll l ev)), collect_units; reflexivity.
Qed.

Lemma add_dirs_app (ds1 ds2 : list string) (f : list string) :
  add_dirs (ds1 ++ ds2) f = add_dirs ds2 (add_dirs ds1 f).
Proof. apply fold_left_app. Qed.

Lemma add_dirs_In (ds f : list string) (q : string) :
  In q (add_dirs ds f) <-> In q f \/ In q ds.
Proof.
  revert f; induction ds as [|d ds IH]; intros f; simpl.
  - tauto.
  - rewrite IH; unfold add_dir.
    destruct (existsb (String.eqb d) f) eqn:He.
    + apply existsb_exists in He as (x & Hx & Heq); apply String.eqb_eq in Heq; subst x.
      split; [tauto|]; intros [H|[H|H]]; [tauto | subst; tauto | tauto].
    + rewrite in_app_iff; simpl; split; intros H; intuition.
Qed.

(** One build task never rejects: it records its collaborator call, writes
    the build's directories and resolves with [task_result]. *)
Lemma buildExtensionTask_eq (env : Collaborators) (ext : ExtensionInstance) (s : Watcher) :
  buildExtensionTask env ext s
  = (Ok (task_result env (contexts s) ext),
     set_fs (set_trace s (trace s ++ [build_effect (contexts s) ext]))
            (add_dirs (build_writes env (contexts s) (buildOutputPath s) ext) (fs s))).
Proof.
  unfold buildExtensionTask, useConcurrentOutputContext, try_catch, bind, has_context,
    gets, task_result, build_effect, build_writes, live.
  destruct (existsb (String.eqb (handle ext)) (contexts s)).
  - unfold rebuild, write_dirs, bind, lift, modify; rewrite record_eq.
    destruct (rebuild_result env (handle ext)) as [errors|m]; simpl.
    + destruct errors; destruct s; reflexivity.
    + destruct s; reflexivity.
  - unfold buildExtension, write_dirs, bind, gets, modify; rewrite record_eq.
    destruct (buildForBundle_result env ext); destruct s; reflexivity.
Qed.

Lemma settle_all_tasks (env : Collaborators) (exts : list ExtensionInstance) (s : Watcher) :
  settle_all (map (buildExtensionTask env) exts) s
  = (Ok (map (fun ext => Ok (task_result env (contexts s) ext)) exts),
     set_fs (set_trace s (trace s ++ map (build_effect (contexts s)) exts))
            (add_dirs (flat_map (build_writes env (contexts s) (buildOutputPath s)) exts) (fs s))).
Proof.
  revert s; induction exts as [|ext exts IH]; intros s; cbn [settle_all map flat_map].
  - rewrite app_nil_r; destruct s; reflexivity.
  - rewrite buildExtensionTask_eq, IH; simpl.
    rewrite add_dirs_app, <- app_assoc; destruct s; reflexivity.
Qed.

Lemma collect_oks {X} (xs : list X) : collect (map Ok xs) = Ok xs.
Proof. induction xs as [|x xs IH]; simpl; [|rewrite IH]; reflexivity. Qed.

(** [buildExtensions] resolves with one [task_result] per input, in input
    order; it records the build calls and writes the builds' directories,
    and touches nothing else. *)
Lemma buildExtensions_eq (env : Collaborators) (exts : list ExtensionInstance) (s : Watcher) :
  buildExtensions env exts s
  = (Ok (map (task_result env (contexts s)) exts),
     set_fs (set_trace s (trace s ++ map (build_effect (contexts s)) exts))
            (add_dirs (flat_map (build_writes env (contexts s) (buildOutputPath s)) exts) (fs s))).
Proof.
  unfold buildExtensions, promise_all, bind, lift.
  rewrite settle_all_tasks.
  rewrite <- (map_map (task_result env (contexts s)) Ok), collect_oks.
  reflexivity.
Qed.

Lemma Forall2_map_self {X Y} (P : X -> Y -> Prop) (f : X -> Y) (xs : list X) :
  (forall x, In x xs -> P x (f x)) -> Forall2 P xs (map f xs).
Proof.
  induction xs as [|x xs IH]; intros H; constructor.
  - apply H; left; reflexivity.
  - apply IH; intros y Hy; apply H; right; exact Hy.
Qed.

(** ** Build Dispatcher *)

(** C1: for every list of extensions, [buildExtensions] resolves (never
    rejects) with exactly one result per input extension, carrying that
    extension's handle; whatever the other builds do, an exception raised
    while building an extension becomes an error result for it: a
    rejected bundle build (no live context) gives an error with the thrown
    message, and for an extension with a live esbuild context a rejected
    [rebuild()] gives an error with the rejection's message and a rebuild
    reporting errors gives an error with their texts joined by newlines. *)
Theorem buildExtensions_one_result_per_artifact (env : Collaborators)
  (extensions : list ExtensionInstance) (s : Watcher) :
  exists results s',
    buildExtensions env extensions s = (Ok results, s') /\
    length results = length extensions /\
    Forall2 (fun ext r =>
               result_handle r = handle ext /\
               (live (contexts s) ext = false ->
                forall m, buildForBundle_result env ext = Some m ->
                          r = BuildError m (handle ext)) /\
               (live (contexts s) ext = true ->
                forall m, rebuild_result env (handle ext) = Throw m ->
                          r = BuildError m (handle ext)) /\
               (live (contexts s) ext = true ->
                forall errors, rebuild_result env (handle ext) = Ok errors -> errors <> [] ->
                               r = BuildError (String.concat newline errors) (handle ext)))
            extensions results.
Proof.
  rewrite buildExtensions_eq.
  eexists _, _; split; [reflexivity|]; split.
  - apply length_map.
  - apply Forall2_map_self; intros ext _; unfold task_result.
    split; [|split; [|split]].
    + destruct (live (contexts s) ext).
      * destruct (rebuild_result env (handle ext)) as [[|e es]|m]; reflexivity.
      * destruct (buildForBundle_result env ext); reflexivity.
    + intros Hlive m Hm; rewrite Hlive, Hm; reflexivity.
    + intros Hlive m Hm; rewrite Hlive, Hm; reflexivity.
    + intros Hlive errors Hr Hne; rewrite Hlive, Hr.
      destruct errors; [contradiction | reflexivity].
Qed.

(** C5: when [X]'s non-incremental build throws [Error("boom")] and [Y]'s
    build succeeds, one [buildExtensions] call over both returns both
    [{status:'error', error:"boom", handle:X}] and [{status:'ok', handle:Y}]. *)
Theorem buildExtensions_error_beside_ok (env : Collaborators)
  (extensions : list ExtensionInstance) (s : Watcher) (X Y : ExtensionInstance)
  (HX : In X extensions) (HY : In Y extensions)
  (HXfresh : live (contexts s) X = false)
  (HXboom : buildForBundle_result env X = Some "boom")
  (HYok : (live (contexts s) Y = false /\ buildForBundle_result env Y = None) \/
          (live (contexts s) Y = true /\ rebuild_result env (handle Y) = Ok [])) :
  exists results s',
    buildExtensions env extensions s = (Ok results, s') /\
    In (BuildError "boom" (handle X)) results /\
    In (BuildOk (handle Y)) results.
Proof.
  rewrite buildExtensions_eq.
  eexists _, _; split; [reflexivity|]; split.
  - replace (BuildError "boom" (handle X)) with (task_result env (contexts s) X).
    + apply in_map; exact HX.
    + unfold task_result; rewrite HXfresh, HXboom; reflexivity.
  - replace (BuildOk (handle Y)) with (task_result env (contexts s) Y).
    + apply in_map; exact HY.
    + unfold task_result.
      destruct HYok as [[Hl Hb]|[Hl Hr]]; rewrite Hl; [rewrite Hb | rewrite Hr]; reflexivity.
Qed.

(** C6 (as amended): an extension with a live esbuild context is rebuilt
    through [rebuild()] and never through [buildForBundle]; its result is
    [ok] when the rebuild resolves with no errors, an error whose message is
    the reported texts joined by newlines when it resolves with some, and an
    error carrying the rejection's message when [rebuild()] rejects. *)
Theorem buildExtensions_incremental_rebuild (env : Collaborators)
  (extensions : list ExtensionInstance) (s : Watcher) :
  exists results s' calls,
    buildExtensions env extensions s = (Ok results, s') /\
    trace s' = trace s ++ calls /\
    Forall2 (fun ext c => live (contexts s) ext = true -> c = ERebuild (handle ext))
            extensions calls /\
    Forall2 (fun ext r =>
               live (contexts s) ext = true ->
               r = match rebuild_result env (handle ext) with
                   | Ok [] => BuildOk (handle ext)
                   | Ok errors => BuildError (String.concat newline errors) (handle ext)
                   | Throw m => BuildError m (handle ext)
                   end)
            extensions results.
Proof.
  rewrite buildExtensions_eq.
  eexists _, _, _; split; [reflexivity|]; split; [destruct s; reflexivity|]; split.
  - apply Forall2_map_self; intros ext _ Hlive.
    unfold build_effect; rewrite Hlive; reflexivity.
  - apply Forall2_map_self; intros ext _ Hlive.
    unfold task_result; rewrite Hlive; reflexivity.
Qed.

(** C6 counterexample: [rej] has a live context whose [rebuild()] rejects,
    so it reports no structured error message, yet its result is not
    [ok]: it is an error carrying the rejection's message. *)
Lemma buildExtensions_rebuild_rejection_not_ok :
  (forall errors, rebuild_result sample_env (handle extRej) <> Ok errors) /\
  fst (buildExtensions sample_env [extRej] (set_contexts sample_watcher ["rej"]))
    = Ok [BuildError "Build failed with 1 error" "rej"] /\
  fst (buildExtensions sample_env [extRej] (set_contexts sample_watcher ["rej"]))
    <> Ok [BuildOk "rej"].
Proof.
  split; [|split].
  - intros errors H; discriminate H.
  - vm_compute; reflexivity.
  - vm_compute; congruence.
Qed.

(** ** Build Output Store *)

Lemma set_trace_set_fs (s : Watcher) (f : list string) (t : list Effect) :
  set_trace (set_fs s f) t = set_fs (set_trace s t) f.
Proof. destruct s; reflexivity. Qed.

Lemma set_fs_twice (s : Watcher) (f f' : list string) :
  set_fs (set_fs s f) f' = set_fs s f'.
Proof. destruct s; reflexivity. Qed.

Lemma filter_filter_andb {X} (f g : X -> bool) (l : list X) :
  filter g (filter f l) = filter (fun x => f x && g x) l.
Proof.
  induction l as [|x l IH]; simpl; [reflexivity|].
  destruct (f x); simpl; [destruct (g x); simpl|]; rewrite IH; reflexivity.
Qed.

Lemma filter_ext_eq {X} (f g : X -> bool) (l : list X) :
  (forall x, f x = g x) -> filter f l = filter g l.
Proof.
  intros H; induction l as [|x l IH]; simpl; [reflexivity|].
  rewrite H, IH; reflexivity.
Qed.

Lemma filter_true {X} (l : list X) : filter (fun _ => true) l = l.
Proof. induction l as [|x l IH]; simpl; rewrite ?IH; reflexivity. Qed.

(** What survives removing every directory of [ps]. *)
Definition kept (ps : list string) (q : string) : bool :=
  forallb (fun p => negb (under p q)) ps.

Lemma rmdir_eq (p : string) (s : Watcher) :
  rmdir p s = (Ok tt, set_fs (set_trace s (trace s ++ [ERmdir p]))
                             (filter (fun q => negb (under p q)) (fs s))).
Proof. reflexivity. Qed.

Lemma settle_all_rmdirs (ps : list string) (s : Watcher) :
  settle_all (map rmdir ps) s
  = (Ok (map (fun _ => Ok tt) ps),
     set_fs (set_trace s (trace s ++ map ERmdir ps)) (filter (kept ps) (fs s))).
Proof.
  revert s; induction ps as [|p ps IH]; intros s; cbn [settle_all map].
  - rewrite app_nil_r, filter_true; destruct s; reflexivity.
  - rewrite rmdir_eq, IH; simpl.
    rewrite set_trace_set_fs, set_fs_twice, set_trace_twice, <- app_assoc.
    rewrite filter_filter_andb; reflexivity.
Qed.

Lemma deleteExtensionsBuildOutput_eq (extensions : list ExtensionInstance) (s : Watcher) :
  let paths := map (fun ext => joinPath (buildOutputPath s) (outputFolderId ext)) extensions in
  deleteExtensionsBuildOutput extensions s
  = (Ok tt, set_fs (set_trace s (trace s ++ map ERmdir paths)) (filter (kept paths) (fs s))).
Proof.
  intros paths.
  unfold deleteExtensionsBuildOutput, promise_all, bind, gets, lift, ret.
  rewrite <- (map_map (fun ext => joinPath (buildOutputPath s) (outputFolderId ext)) rmdir).
  rewrite settle_all_rmdirs, collect_units; reflexivity.
Qed.

Lemma kept_idem (ps : list string) (l : list string) :
  filter (kept ps) (filter (kept ps) l) = filter (kept ps) l.
Proof.
  rewrite filter_filter_andb; apply filter_ext_eq; intros q.
  destruct (kept ps q); reflexivity.
Qed.

(** C8: purging build output always succeeds, also for extensions whose
    output directory does not exist (for instance one purged already), no
    directory below a purged path remains, and purging the same
    extensions a second time leaves the directories on disk as the first
    purge left them. *)
Theorem deleteExtensionsBuildOutput_idempotent (extensions : list ExtensionInstance)
  (s : Watcher) :
  let s1 := snd (deleteExtensionsBuildOutput extensions s) in
  let s2 := snd (deleteExtensionsBuildOutput extensions s1) in
  fst (deleteExtensionsBuildOutput extensions s) = Ok tt /\
  fst (deleteExtensionsBuildOutput extensions s1) = Ok tt /\
  (forall ext q, In ext extensions -> In q (fs s1) ->
                 under (joinPath (buildOutputPath s) (outputFolderId ext)) q = false) /\
  fs s2 = fs s1.
Proof.
  intros s1 s2; subst s1 s2.
  rewrite !deleteExtensionsBuildOutput_eq; simpl.
  split; [reflexivity|]; split; [reflexivity|]; split.
  - intros ext q Hext Hq.
    apply filter_In in Hq as [_ Hkept].
    unfold kept in Hkept; rewrite forallb_forall in Hkept.
    specialize (Hkept (joinPath (buildOutputPath s) (outputFolderId ext))).
    apply negb_true_iff, Hkept, in_map_iff; exists ext; split; [reflexivity | exact Hext].
  - apply kept_idem.
Qed.

(** ** Batch handler *)

Definition no_extensions_msg : string := "Change detected, but no extensions were affected".

Definition created_or_updated (ev : AppEvent) : list ExtensionInstance :=
  map extension (filter (fun e => negb (EventType_eqb (type e) Deleted)) (extensionEvents ev)).

Definition deleted (ev : AppEvent) : list ExtensionInstance :=
  map extension (filter (fun e => EventType_eqb (type e) Deleted) (extensionEvents ev)).

(** The handler on a non-empty batch whose context update succeeds: it
    stores the snapshot, updates the contexts, builds the created and
    updated extensions, purges the deleted ones and then calls every
    [onEvent] listener. *)
Lemma handleBatch_nonempty_eq (env : Collaborators) (ev : AppEvent) (s : Watcher)
  (c : list string) :
  extensionEvents ev <> [] ->
  updateContexts_result env ev (contexts s) = (c, None) ->
  let s1 := set_contexts (set_trace (set_app s (ev_app ev)) (trace s ++ [EUpdateContexts ev])) c in
  let s2 := set_fs (set_trace s1 (trace s1 ++ map (build_effect c) (created_or_updated ev)))
                   (add_dirs (flat_map (build_writes env c (buildOutputPath s)) (created_or_updated ev))
                             (fs s1)) in
  let paths := map (fun ext => joinPath (buildOutputPath s) (outputFolderId ext)) (deleted ev) in
  let s3 := set_fs (set_trace s2 (trace s2 ++ map ERmdir paths)) (filter (kept paths) (fs s2)) in
  handleBatch env (Ok (Some ev)) s
  = (Ok tt, set_trace s3 (trace s3 ++ map (fun l => ECallAll l ev) (all_listeners s3))).
Proof.
  intros Hne Hupd s1 s2 paths s3.
  unfold handleBatch, try_catch, bind, lift, modify.
  destruct (Nat.eqb (length (extensionEvents ev)) 0) eqn:Hlen.
  - apply Nat.eqb_eq, length_zero_iff_nil in Hlen; contradiction.
  - unfold updateContexts, bind, gets, lift, modify; rewrite record_eq.
    simpl (contexts _); rewrite Hupd; cbv beta iota zeta.
    unfold ret at 1; fold (created_or_updated ev) (deleted ev).
    rewrite buildExtensions_eq; simpl (contexts _); simpl (buildOutputPath _).
    rewrite deleteExtensionsBuildOutput_eq; simpl (buildOutputPath _).
    rewrite emit_all_eq; reflexivity.
Qed.

(** C3 (as amended): on a batch whose events are [Created(A)],
    [Updated(B)], [Deleted(C)] and whose context update succeeds, the
    handler builds exactly [A] and [B], removes exactly [C]'s output
    directory, and only after both calls every registered [onEvent]
    listener once, with the batch carrying the three events; afterwards a
    directory is present when it was there before or was written by the
    builds of [A] and [B], and does not lie below [C]'s output directory. *)
Theorem handleBatch_created_updated_deleted (env : Collaborators) (ev : AppEvent)
  (s : Watcher) (A B C : ExtensionInstance) (c : list string)
  (Hev : extensionEvents ev =
         [mkExtensionEvent Created A; mkExtensionEvent Updated B; mkExtensionEvent Deleted C])
  (Hupd : updateContexts_result env ev (contexts s) = (c, None)) :
  let pathC := joinPath (buildOutputPath s) (outputFolderId C) in
  let written := build_writes env c (buildOutputPath s) A ++ build_writes env c (buildOutputPath s) B in
  exists s' (before after : list Effect),
    handleBatch env (Ok (Some ev)) s = (Ok tt, s') /\
    trace s' = trace s ++ before ++ after /\
    built_handles before = [handle A; handle B] /\
    removed_dirs before = [pathC] /\
    all_calls before = [] /\
    after = map (fun l => ECallAll l ev) (all_listeners s) /\
    extensionEvents ev = [mkExtensionEvent Created A; mkExtensionEvent Updated B;
                          mkExtensionEvent Deleted C] /\
    (forall q, In q (fs s') <-> (In q (fs s) \/ In q written) /\ under pathC q = false).
Proof.
  intros pathC written.
  assert (Hne : extensionEvents ev <> []) by (rewrite Hev; discriminate).
  rewrite (handleBatch_nonempty_eq env ev s c Hne Hupd).
  assert (Hcu : created_or_updated ev = [A; B]) by (unfold created_or_updated; rewrite Hev; reflexivity).
  assert (Hdel : deleted ev = [C]) by (unfold deleted; rewrite Hev; reflexivity).
  rewrite Hcu, Hdel; simpl.
  eexists _, [EUpdateContexts ev; build_effect c A; build_effect c B; ERmdir pathC], _.
  split; [reflexivity|]; split.
  - simpl; rewrite <- !app_assoc; reflexivity.
  - split; [unfold build_effect; destruct (live c A), (live c B); reflexivity|].
    split; [unfold build_effect; destruct (live c A), (live c B); reflexivity|].
    split; [unfold build_effect; destruct (live c A), (live c B); reflexivity|].
    split; [reflexivity|]; split; [exact Hev|].
    intros q; simpl; rewrite filter_In, add_dirs_In; unfold kept; simpl.
    rewrite andb_true_r, negb_true_iff, app_nil_r; subst written pathC; tauto.
Qed.

(** C3 counterexample: on the batch [Created(a)], [Updated(b)],
    [Deleted(c)] whose context update rejects, the handler builds neither
    [a] nor [b], removes no output directory and calls none of the
    registered [onEvent] listeners. *)
Lemma handleBatch_cud_update_rejected_builds_nothing :
  extensionEvents batch_cud = [mkExtensionEvent Created extA; mkExtensionEvent Updated extB;
                               mkExtensionEvent Deleted extC] /\
  all_listeners ready_watcher = [7] /\
  exists s' new,
    handleBatch failing_env (Ok (Some batch_cud)) ready_watcher = (Ok tt, s') /\
    trace s' = trace ready_watcher ++ new /\
    built_handles new = [] /\ removed_dirs new = [] /\ all_calls new = [].
Proof.
  split; [reflexivity|]; split; [vm_compute; reflexivity|].
  eexists _, _; split; [vm_compute; reflexivity|].
  split; [vm_compute; reflexivity|].
  vm_compute; repeat split.
Qed.

(** C4: on a batch with no extension event the handler builds nothing,
    removes nothing and calls no [onEvent] listener: its only call is the
    debug log line (besides storing the batch's app snapshot, see C10). *)
Theorem handleBatch_no_events (env : Collaborators) (ev : AppEvent) (s : Watcher)
  (Hempty : extensionEvents ev = []) :
  handleBatch env (Ok (Some ev)) s
  = (Ok tt, set_trace (set_app s (ev_app ev)) (trace s ++ [EOutputDebug no_extensions_msg])).
Proof.
  unfold handleBatch, try_catch, bind, lift, modify.
  rewrite Hempty; reflexivity.
Qed.

(** C10: for every non-null batch the handler replaces the app snapshot
    with the batch's one, whether or not the batch has extension events
    and whatever the later steps do; on a batch with no extension event
    that replacement happens although nothing is built, removed or
    notified. *)
Theorem handleBatch_replaces_snapshot (env : Collaborators) (ev : AppEvent) (s : Watcher) :
  app (snd (handleBatch env (Ok (Some ev)) s)) = ev_app ev /\
  (extensionEvents ev = [] ->
   trace (snd (handleBatch env (Ok (Some ev)) s)) = trace s ++ [EOutputDebug no_extensions_msg]).
Proof.
  split.
  - destruct (extensionEvents ev) as [|e es] eqn:Hev.
    + unfold handleBatch, try_catch, bind, lift, modify; rewrite Hev; reflexivity.
    + destruct (updateContexts_result env ev (contexts s)) as [c [m|]] eqn:Hupd.
      * unfold handleBatch, try_catch, bind, lift, modify; rewrite Hev; simpl.
        unfold updateContexts, bind, gets, lift, modify; rewrite record_eq.
        simpl (contexts _); rewrite Hupd; reflexivity.
      * rewrite (handleBatch_nonempty_eq env ev s c) by (rewrite ?Hev; congruence).
        reflexivity.
  - intros Hempty; unfold handleBatch, try_catch, bind, lift, modify.
    rewrite Hempty; reflexivity.
Qed.

(** ** Readiness notification *)

Lemma onStart_ready_eq (listener : nat) (s : Watcher) :
  ready s = true ->
  onStart listener s
  = (Ok tt, set_trace (set_ready_listeners s (ready_listeners s ++ [listener]))
                      (trace s ++ map ECallReady (ready_listeners s ++ [listener]))).
Proof.
  intros Hready.
  unfold onStart, bind, modify, gets; simpl.
  rewrite Hready, emit_ready_eq; reflexivity.
Qed.

(** C7: a listener registered with [onStart] once the watcher is ready is
    still called. *)
Theorem onStart_after_ready_invoked (listener : nat) (s : Watcher)
  (Hready : ready s = true) :
  exists calls,
    trace (snd (onStart listener s)) = trace s ++ calls /\
    In (ECallReady listener) calls.
Proof.
  rewrite (onStart_ready_eq listener s Hready); simpl.
  eexists; split; [reflexivity|].
  rewrite map_app; apply in_or_app; right; left; reflexivity.
Qed.

(** C9: [onStart] on a ready watcher emits 'ready' to every registered
    listener: each earlier [onStart] listener is called again, in
    registration order, followed by the new one. *)
Theorem onStart_after_ready_reemits_to_all (listener : nat) (s : Watcher)
  (Hready : ready s = true) :
  trace (snd (onStart listener s))
  = trace s ++ map ECallReady (ready_listeners s) ++ [ECallReady listener] /\
  ready_listeners (snd (onStart listener s)) = ready_listeners s ++ [listener].
Proof.
  rewrite (onStart_ready_eq listener s Hready); simpl.
  rewrite map_app; split; reflexivity.
Qed.

(** C2 (code): a listener registered before [start()], with [start()]
    called twice while the first call is suspended: the clean, initial
    build and subscription run once and the first 'ready' reaches listener
    1 once; a second listener registered afterwards makes listener 1 be
    called a second time. *)
Theorem start_ready_delivered_twice :
  let s := run sample_env [OpOnStart 1; OpStart; OpStart; OpResumeStart; OpStart]
               sample_watcher in
  let s' := run sample_env [OpOnStart 2] s in
  length (filter (fun e => match e with EMkdir _ => true | _ => false end) (trace s')) = 1 /\
  length (filter (fun e => match e with EStartFileWatcher => true | _ => false end) (trace s')) = 1 /\
  built_handles (trace s') = ["a"; "b"; "c"] /\
  ready_calls 1 (trace s) = 1 /\
  ready_calls 1 (trace s') = 2 /\
  ready_calls 2 (trace s') = 1.
Proof. vm_compute; repeat split. Qed.

(** ** [start()] runs its sequence at most once *)

(** Collaborator calls that only the body of [start()] makes. *)
Definition start_effect (e : Effect) : bool :=
  match e with
  | EMkdir _ | ECreateContexts _ | EStartFileWatcher => true
  | _ => false
  end.

Definition is_mkdir (e : Effect) : bool :=
  match e with EMkdir _ => true | _ => false end.

Definition is_subscribe (e : Effect) : bool :=
  match e with EStartFileWatcher => true | _ => false end.

Definition count_by (p : Effect -> bool) (t : list Effect) : nat := length (filter p t).

(** A computation that leaves [started] and [start_pending] alone and
    makes none of the calls of the [start()] body. *)
Definition Quiet {A} (m : M A) : Prop :=
  forall s,
    started (snd (m s)) = started s /\
    start_pending (snd (m s)) = start_pending s /\
    exists new, trace (snd (m s)) = trace s ++ new /\
                forallb (fun e => negb (start_effect e)) new = true.

Lemma Quiet_ret {A} (a : A) : Quiet (ret a).
Proof. intros s; simpl; split; [|split]; [reflexivity|reflexivity|exists []; rewrite app_nil_r; auto]. Qed.

Lemma Quiet_lift {A} (r : Res A) : Quiet (lift r).
Proof. intros s; simpl; split; [|split]; [reflexivity|reflexivity|exists []; rewrite app_nil_r; auto]. Qed.

Lemma Quiet_gets {A} (f : Watcher -> A) : Quiet (gets f).
Proof. intros s; simpl; split; [|split]; [reflexivity|reflexivity|exists []; rewrite app_nil_r; auto]. Qed.

Lemma Quiet_throw {A} (m : string) : Quiet (@throw A m).
Proof. intros s; simpl; split; [|split]; [reflexivity|reflexivity|exists []; rewrite app_nil_r; auto]. Qed.

Lemma Quiet_record (e : Effect) : start_effect e = false -> Quiet (record e).
Proof.
  intros He s; simpl; split; [|split]; [reflexivity|reflexivity|].
  exists [e]; simpl; rewrite He; auto.
Qed.

Lemma Quiet_modify (f : Watcher -> Watcher) :
  (forall s, started (f s) = started s /\ start_pending (f s) = start_pending s /\
             trace (f s) = trace s) ->
  Quiet (modify f).
Proof.
  intros Hf s; destruct (Hf s) as (H1 & H2 & H3); simpl.
  split; [|split]; [exact H1|exact H2|exists []; rewrite app_nil_r; auto].
Qed.

Lemma Quiet_bind {A B} (m : M A) (k : A -> M B) :
  Quiet m -> (forall a, Quiet (k a)) -> Quiet (bind m k).
Proof.
  intros Hm Hk s; unfold bind.
  destruct (Hm s) as (H1 & H2 & new1 & Ht1 & Hq1).
  destruct (m s) as [[a|e] s1]; simpl in *.
  - destruct (Hk a s1) as (H1' & H2' & new2 & Ht2 & Hq2).
    split; [congruence|split; [congruence|]].
    exists (new1 ++ new2); split.
    + rewrite Ht2, Ht1, app_assoc; reflexivity.
    + rewrite forallb_app, Hq1, Hq2; reflexivity.
  - split; [exact H1|split; [exact H2|exists new1; auto]].
Qed.

Lemma Quiet_try_catch {A} (m : M A) (h : string -> M A) :
  Quiet m -> (forall e, Quiet (h e)) -> Quiet (try_catch m h).
Proof.
  intros Hm Hh s; unfold try_catch.
  destruct (Hm s) as (H1 & H2 & new1 & Ht1 & Hq1).
  destruct (m s) as [[a|e] s1]; simpl in *.
  - split; [exact H1|split; [exact H2|exists new1; auto]].
  - destruct (Hh e s1) as (H1' & H2' & new2 & Ht2 & Hq2).
    split; [congruence|split; [congruence|]].
    exists (new1 ++ new2); split.
    + rewrite Ht2, Ht1, app_assoc; reflexivity.
    + rewrite forallb_app, Hq1, Hq2; reflexivity.
Qed.

Lemma forallb_map_quiet {X} (f : X -> Effect) (xs : list X) :
  (forall x, start_effect (f x) = false) ->
  forallb (fun e => negb (start_effect e)) (map f xs) = true.
Proof.
  intros Hf; induction xs as [|x xs IH]; simpl; [reflexivity|].
  rewrite Hf, IH; reflexivity.
Qed.

Lemma Quiet_buildExtensions (env : Collaborators) (exts : list ExtensionInstance) :
  Quiet (buildExtensions env exts).
Proof.
  intros s; rewrite buildExtensions_eq; simpl.
  split; [reflexivity|split; [reflexivity|]].
  eexists; split; [reflexivity|].
  apply forallb_map_quiet; intros ext; unfold build_effect; destruct (live _ ext); reflexivity.
Qed.

Lemma Quiet_deleteExtensionsBuildOutput (exts : list ExtensionInstance) :
  Quiet (deleteExtensionsBuildOutput exts).
Proof.
  intros s; rewrite deleteExtensionsBuildOutput_eq; simpl.
  split; [reflexivity|split; [reflexivity|]].
  eexists; split; [reflexivity|].
  apply forallb_map_quiet; reflexivity.
Qed.

Lemma Quiet_emit_ready : Quiet emit_ready.
Proof.
  intros s; rewrite emit_ready_eq; simpl.
  split; [reflexivity|split; [reflexivity|]].
  eexists; split; [reflexivity|]; apply forallb_map_quiet; reflexivity.
Qed.

Lemma Quiet_emit_all (ev : AppEvent) : Quiet (emit_all ev).
Proof.
  intros s; rewrite emit_all_eq; simpl.
  split; [reflexivity|split; [reflexivity|]].
  eexists; split; [reflexivity|]; apply forallb_map_quiet; reflexivity.
Qed.

Ltac quiet :=
  repeat match goal with
    | |- Quiet (ret _) => apply Quiet_ret
    | |- Quiet (lift _) => apply Quiet_lift
    | |- Quiet (gets _) => apply Quiet_gets
    | |- Quiet (throw _) => apply Quiet_throw
    | |- Quiet (buildExtensions _ _) => apply Quiet_buildExtensions
    | |- Quiet (deleteExtensionsBuildOutput _) => apply Quiet_deleteExtensionsBuildOutput
    | |- Quiet emit_ready => apply Quiet_emit_ready
    | |- Quiet (emit_all _) => apply Quiet_emit_all
    | |- Quiet (record _) => apply Quiet_record; reflexivity
    | |- Quiet (modify _) => apply Quiet_modify; intros ?s; simpl; auto
    | |- Quiet (bind _ _) => apply Quiet_bind; [| intros ?x; cbv zeta]
    | |- Quiet (try_catch _ _) => apply Quiet_try_catch; [| intros ?e]
    | |- Quiet (if ?b then _ else _) => destruct b
    | |- Quiet (match ?x with _ => _ end) => destruct x
    end.

Lemma Quiet_handleBatch (env : Collaborators) (r : Res (option AppEvent)) :
  Quiet (handleBatch env r).
Proof. unfold handleBatch, updateContexts; quiet. Qed.

Lemma Quiet_onStart (listener : nat) : Quiet (onStart listener).
Proof. unfold onStart; quiet. Qed.

Lemma Quiet_onEvent (listener : nat) : Quiet (onEvent listener).
Proof. unfold onEvent; quiet. Qed.

(** A computation that leaves [started] and [start_pending] alone and
    makes at most [n] calls selected by [p]. *)
Definition Bounded (p : Effect -> bool) (n : nat) {A} (m : M A) : Prop :=
  forall s,
    started (snd (m s)) = started s /\
    start_pending (snd (m s)) = start_pending s /\
    exists new, trace (snd (m s)) = trace s ++ new /\ count_by p new <= n.

Lemma count_by_app (p : Effect -> bool) (l1 l2 : list Effect) :
  count_by p (l1 ++ l2) = count_by p l1 + count_by p l2.
Proof. unfold count_by; rewrite filter_app, length_app; reflexivity. Qed.

Lemma count_by_quiet (p : Effect -> bool) (l : list Effect) :
  (forall e, p e = true -> start_effect e = true) ->
  forallb (fun e => negb (start_effect e)) l = true -> count_by p l = 0.
Proof.
  intros Hp; induction l as [|e l IH]; simpl; [reflexivity|].
  intros H; apply andb_prop in H as [He Hl].
  unfold count_by in *; simpl.
  destruct (p e) eqn:Hpe.
  - rewrite (Hp e Hpe) in He; discriminate He.
  - apply IH, Hl.
Qed.

Lemma Quiet_Bounded (p : Effect -> bool) {A} (m : M A) :
  (forall e, p e = true -> start_effect e = true) -> Quiet m -> Bounded p 0 m.
Proof.
  intros Hp Hm s; destruct (Hm s) as (H1 & H2 & new & Ht & Hq).
  split; [exact H1|split; [exact H2|]].
  exists new; split; [exact Ht|]; rewrite (count_by_quiet p new Hp Hq); reflexivity.
Qed.

Lemma Bounded_weaken (p : Effect -> bool) (n n' : nat) {A} (m : M A) :
  n <= n' -> Bounded p n m -> Bounded p n' m.
Proof.
  intros Hle Hm s; destruct (Hm s) as (H1 & H2 & new & Ht & Hc).
  split; [exact H1|split; [exact H2|exists new; split; [exact Ht|lia]]].
Qed.

Lemma Bounded_ret (p : Effect -> bool) (n : nat) {A} (a : A) : Bounded p n (ret a).
Proof.
  intros s; simpl; split; [|split]; [reflexivity|reflexivity|].
  exists []; rewrite app_nil_r; split; [reflexivity|unfold count_by; simpl; lia].
Qed.

Lemma Bounded_lift (p : Effect -> bool) (n : nat) {A} (r : Res A) : Bounded p n (lift r).
Proof.
  intros s; simpl; split; [|split]; [reflexivity|reflexivity|].
  exists []; rewrite app_nil_r; split; [reflexivity|unfold count_by; simpl; lia].
Qed.

Lemma Bounded_gets (p : Effect -> bool) (n : nat) {A} (f : Watcher -> A) : Bounded p n (gets f).
Proof.
  intros s; simpl; split; [|split]; [reflexivity|reflexivity|].
  exists []; rewrite app_nil_r; split; [reflexivity|unfold count_by; simpl; lia].
Qed.

Lemma Bounded_throw (p : Effect -> bool) (n : nat) {A} (m : string) : Bounded p n (@throw A m).
Proof.
  intros s; simpl; split; [|split]; [reflexivity|reflexivity|].
  exists []; rewrite app_nil_r; split; [reflexivity|unfold count_by; simpl; lia].
Qed.

Lemma Bounded_modify (p : Effect -> bool) (n : nat) (f : Watcher -> Watcher) :
  (forall s, started (f s) = started s /\ start_pending (f s) = start_pending s /\
             trace (f s) = trace s) ->
  Bounded p n (modify f).
Proof.
  intros Hf s; destruct (Hf s) as (H1 & H2 & H3); simpl.
  split; [exact H1|split; [exact H2|]].
  exists []; rewrite app_nil_r; split; [exact H3|unfold count_by; simpl; lia].
Qed.

Lemma Bounded_record (p : Effect -> bool) (e : Effect) :
  Bounded p (if p e then 1 else 0) (record e).
Proof.
  intros s; simpl; split; [|split]; [reflexivity|reflexivity|].
  exists [e]; split; [reflexivity|unfold count_by; simpl; destruct (p e); simpl; lia].
Qed.

Lemma Bounded_bind (p : Effect -> bool) (n k : nat) {A B} (m : M A) (f : A -> M B) :
  Bounded p n m -> (forall a, Bounded p k (f a)) -> Bounded p (n + k) (bind m f).
Proof.
  intros Hm Hf s; unfold bind.
  destruct (Hm s) as (H1 & H2 & new1 & Ht1 & Hc1).
  destruct (m s) as [[a|e] s1]; simpl in *.
  - destruct (Hf a s1) as (H1' & H2' & new2 & Ht2 & Hc2).
    split; [congruence|split; [congruence|]].
    exists (new1 ++ new2); split.
    + rewrite Ht2, Ht1, app_assoc; reflexivity.
    + rewrite count_by_app; lia.
  - split; [exact H1|split; [exact H2|exists new1; split; [exact Ht1|lia]]].
Qed.

(** Leaves get the count [0] (or the one already fixed for the other
    branch of an [if]); a [record] gets [1] or [0] as [p] selects it. *)
Ltac bounded Hp :=
  repeat match goal with
    | |- Bounded _ _ (ret _) => first [apply (Bounded_ret _ 0) | apply Bounded_ret]
    | |- Bounded _ _ (lift _) => first [apply (Bounded_lift _ 0) | apply Bounded_lift]
    | |- Bounded _ _ (gets _) => first [apply (Bounded_gets _ 0) | apply Bounded_gets]
    | |- Bounded _ _ (throw _) => first [apply (Bounded_throw _ 0) | apply Bounded_throw]
    | |- Bounded ?p ?n (record ?e) =>
        let c := eval cbn in (if p e then 1 else 0) in
        unify n c;
        apply (Bounded_weaken p (if p e then 1 else 0)); [cbn; lia | apply Bounded_record]
    | |- Bounded _ _ (modify _) =>
        first [apply (Bounded_modify _ 0) | apply Bounded_modify]; intros ?s; simpl; auto
    | |- Bounded _ _ (bind _ _) => eapply Bounded_bind; [| intros ?x]
    | |- Bounded _ _ (buildExtensions _ _) =>
        apply Quiet_Bounded; [exact Hp | apply Quiet_buildExtensions]
    | |- Bounded _ _ emit_ready => apply Quiet_Bounded; [exact Hp | apply Quiet_emit_ready]
    | |- Bounded _ _ (if ?b then _ else _) => destruct b
    | |- Bounded _ _ (match ?x with _ => _ end) => destruct x
    end.

Lemma is_mkdir_start_effect (e : Effect) : is_mkdir e = true -> start_effect e = true.
Proof. destruct e; simpl; congruence. Qed.

Lemma is_subscribe_start_effect (e : Effect) : is_subscribe e = true -> start_effect e = true.
Proof. destruct e; simpl; congruence. Qed.

(** The body of [start()] recreates the output directory once and
    subscribes to the file watcher once. *)
Lemma start_body_mkdir_once (env : Collaborators) : Bounded is_mkdir 1 (start_body env).
Proof.
  pose proof is_mkdir_start_effect as Hp.
  eapply Bounded_weaken; [|unfold start_body, fileExists, rmdir, mkdir, createContexts, startFileWatcher; bounded Hp].
  simpl; lia.
Qed.

Lemma start_body_subscribe_once (env : Collaborators) : Bounded is_subscribe 1 (start_body env).
Proof.
  pose proof is_subscribe_start_effect as Hp.
  eapply Bounded_weaken; [|unfold start_body, fileExists, rmdir, mkdir, createContexts, startFileWatcher; bounded Hp].
  simpl; lia.
Qed.

(** The invariant: a call selected by [p] already made, the suspended
    first [start()] body and a not-yet-started watcher exclude each other. *)
Definition start_inv (p : Effect -> bool) (s : Watcher) : Prop :=
  count_by p (trace s) + (if start_pending s then 1 else 0)
  + (if started s then 0 else 1) <= 1.

Lemma step_start_inv (p : Effect -> bool) (env : Collaborators) (op : Op) (s : Watcher) :
  (forall e, p e = true -> start_effect e = true) ->
  Bounded p 1 (start_body env) ->
  start_inv p s -> start_inv p (snd (step env op s)).
Proof.
  intros Hp Hbody Hinv.
  assert (Hq : forall {A} (m : M A), Quiet m -> start_inv p (snd (m s))).
  { intros A m Hm; destruct (Hm s) as (H1 & H2 & new & Ht & Hnew).
    unfold start_inv in *; rewrite H1, H2, Ht, count_by_app, (count_by_quiet p new Hp Hnew).
    lia. }
  destruct op as [| |l|l|r]; cbn [step].
  - unfold start_call, bind, gets, modify; simpl.
    destruct (started s) eqn:Hst; simpl; [exact Hinv|].
    unfold start_inv in *; simpl; rewrite Hst in Hinv.
    destruct (start_pending s); lia.
  - unfold resume_start, bind, gets, modify; simpl.
    destruct (start_pending s) eqn:Hpend; simpl; [|exact Hinv].
    destruct (Hbody (set_start_pending s false)) as (H1 & H2 & new & Ht & Hc).
    unfold start_inv in *; simpl in *.
    rewrite H1, H2, Ht, count_by_app; simpl; rewrite Hpend in Hinv; lia.
  - apply Hq, Quiet_onStart.
  - apply Hq, Quiet_onEvent.
  - apply Hq; quiet; apply Quiet_handleBatch.
Qed.

Lemma run_start_inv (p : Effect -> bool) (env : Collaborators) (ops : list Op) (s : Watcher) :
  (forall e, p e = true -> start_effect e = true) ->
  Bounded p 1 (start_body env) ->
  start_inv p s -> start_inv p (run env ops s).
Proof.
  intros Hp Hbody; revert s; induction ops as [|op ops IH]; intros s Hinv; simpl.
  - exact Hinv.
  - apply IH, step_start_inv; assumption.
Qed.

(** Whatever calls of [start()], resumptions of its suspended body,
    listener registrations and batches a session interleaves, the output
    directory is recreated at most once and the file watcher is subscribed
    at most once. *)
Lemma start_sequence_at_most_once (env : Collaborators) (a : AppLinkedInterface)
  (buildOutputPath_opt : option string) (disk : list string) (ops : list Op) :
  let t := trace (run env ops (new_watcher a buildOutputPath_opt disk)) in
  count_by is_mkdir t <= 1 /\ count_by is_subscribe t <= 1.
Proof.
  split.
  - assert (H := run_start_inv is_mkdir env ops (new_watcher a buildOutputPath_opt disk)
                   is_mkdir_start_effect (start_body_mkdir_once env)).
    unfold start_inv in H; simpl in H; lia.
  - assert (H := run_start_inv is_subscribe env ops (new_watcher a buildOutputPath_opt disk)
                   is_subscribe_start_effect (start_body_subscribe_once env)).
    unfold start_inv in H; simpl in H; lia.
Qed.


(** ** The rest of the watcher: [start()], the batch callback and the purge *)




Lemma built_handles_app (t1 t2 : list Effect) :
  built_handles (t1 ++ t2) = built_handles t1 ++ built_handles t2.
Proof. apply flat_map_app. Qed.

Lemma built_handles_build_effects (c : list string) (exts : list ExtensionInstance) :
  built_handles (map (build_effect c) exts) = map handle exts.
Proof.
  induction exts as [|ext exts IH]; [reflexivity|].
  change (map (build_effect c) (ext :: exts))
    with ([build_effect c ext] ++ map (build_effect c) exts).
  rewrite built_handles_app, IH; unfold build_effect; destruct (live c ext); reflexivity.
Qed.



(** The body of [start()] when the creation of the esbuild contexts
    rejects: it stops there or earlier, before any build. *)
Lemma start_body_fail (env : Collaborators) (s : Watcher) (m : string)
  (Hcreate : createContexts_result env (filter isESBuildExtension (realExtensions (app s))) = Throw m) :
  let s' := snd (start_body env s) in
  ready s' = ready s /\ watching s' = watching s /\ app s' = app s /\
  exists new, trace s' = trace s ++ new /\ forallb passive new = true.
Proof.
  destruct s as [root a st rd pend w ctx f rl al t]; simpl in *.
  unfold start_body, fileExists, rmdir, mkdir, createContexts, bind, gets, modify, lift, record, modify.
  simpl.
  destruct (existsb (String.eqb root) f), (mkdir_result env root); simpl; try rewrite Hcreate; simpl.
  all: split; [reflexivity|]; split; [reflexivity|]; split; [reflexivity|].
  all: eexists; split; [rewrite <- !app_assoc; reflexivity | reflexivity].
Qed.





Lemma step_start_failed (env : Collaborators) (a : AppLinkedInterface) (m : string)
  (Hcreate : createContexts_result env (filter isESBuildExtension (realExtensions a)) = Throw m)
  (op : Op) (s : Watcher) :
  ready s = false -> watching s = false -> app s = a -> forallb passive (trace s) = true ->
  let s' := snd (step env op s) in
  ready s' = false /\ watching s' = false /\ app s' = a /\ forallb passive (trace s') = true.
Proof.
  intros Hr Hw Ha Ht s'; subst s'.
  destruct op as [| |l|l|r]; cbn [step].
  - unfold start_call, bind, gets, modify.
    destruct (started s); simpl; auto.
  - unfold resume_start, bind, gets, modify.
    destruct (start_pending s); simpl; [|auto].
    pose proof (start_body_fail env (set_start_pending s false) m) as H.
    cbv zeta in H; simpl in H; rewrite Ha in H.
    destruct (H Hcreate) as (Hr' & Hw' & Ha' & new & Ht' & Hnew); clear H.
    rewrite Hr', Hw', Ha', Ht'; simpl; split; [exact Hr|]; split; [exact Hw|]; split; [reflexivity|].
    rewrite forallb_app, Ht, Hnew; reflexivity.
  - unfold onStart, bind, gets, modify; simpl; rewrite Hr; simpl; auto.
  - unfold onEvent, modify; simpl; auto.
  - unfold bind, gets; simpl; rewrite Hw; simpl; auto.
Qed.

(** When the creation of the esbuild contexts rejects, [start()] stops
    before its initial build: whatever calls of [start()], resumptions,
    listener registrations and batches follow, the watcher never becomes
    ready, never subscribes to file events, keeps its app snapshot, and its
    only collaborator calls are the existence check, the removal and the
    creation of the output root and the context creation: no extension is
    built, no listener is called and no batch is handled. *)
Theorem start_failure_never_ready (env : Collaborators) (a : AppLinkedInterface)
  (buildOutputPath_opt : option string) (disk : list string) (ops : list Op) (m : string)
  (Hcreate : createContexts_result env (filter isESBuildExtension (realExtensions a)) = Throw m) :
  let s := run env ops (new_watcher a buildOutputPath_opt disk) in
  ready s = false /\ watching s = false /\ app s = a /\
  Forall (fun e => passive e = true) (trace s).
Proof.
  intros s; subst s.
  assert (H : forall s, ready s = false -> watching s = false -> app s = a ->
                        forallb passive (trace s) = true ->
                        let s' := run env ops s in
                        ready s' = false /\ watching s' = false /\ app s' = a /\
                        forallb passive (trace s') = true).
  { induction ops as [|op ops IH]; intros s Hr Hw Ha Ht; simpl; [auto|].
    destruct (step_start_failed env a m Hcreate op s Hr Hw Ha Ht) as (Hr' & Hw' & Ha' & Ht').
    apply IH; assumption. }
  destruct (H (new_watcher a buildOutputPath_opt disk)) as (Hr & Hw & Ha & Ht);
    [reflexivity | reflexivity | reflexivity | reflexivity |].
  split; [exact Hr|]; split; [exact Hw|]; split; [exact Ha|].
  apply Forall_forall; intros e He; rewrite forallb_forall in Ht; apply Ht, He.
Qed.


Lemma kept_iff (ps : list string) (q : string) :
  kept ps q = true <-> forall p, In p ps -> under p q = false.
Proof.
  unfold kept; rewrite forallb_forall; split; intros H p Hp; specialize (H p Hp).
  - apply negb_true_iff, H.
  - rewrite H; reflexivity.
Qed.

(** [deleteExtensionsBuildOutput] always resolves; it makes one removal
    call per extension, in order, for [buildOutputPath/<output folder id>];
    a directory remains exactly when it was there and lies below none of
    these paths; nothing else of the watcher changes. *)
Theorem deleteExtensionsBuildOutput_removes_exactly (extensions : list ExtensionInstance)
  (s : Watcher) :
  let path := fun ext => joinPath (buildOutputPath s) (outputFolderId ext) in
  let s' := snd (deleteExtensionsBuildOutput extensions s) in
  fst (deleteExtensionsBuildOutput extensions s) = Ok tt /\
  trace s' = trace s ++ map (fun ext => ERmdir (path ext)) extensions /\
  (forall q, In q (fs s') <->
             In q (fs s) /\ forall ext, In ext extensions -> under (path ext) q = false) /\
  set_fs (set_trace s' (trace s)) (fs s) = s.
Proof.
  intros path s'; subst s'.
  rewrite deleteExtensionsBuildOutput_eq; simpl.
  split; [reflexivity|]; split; [rewrite map_map; reflexivity|]; split.
  - intros q; rewrite filter_In, kept_iff; split.
    + intros [Hq Hk]; split; [exact Hq|]; intros ext Hext; apply Hk, in_map, Hext.
    + intros [Hq Hk]; split; [exact Hq|]; intros p Hp.
      apply in_map_iff in Hp as (ext & <- & Hext); apply Hk, Hext.
  - destruct s; reflexivity.
Qed.

(** The file-watcher callback never rejects, whatever [handleWatcherEvents]
    settles to: a rejection is only written to stderr as
    ["Error handling event: " ++ message], with no other effect, and a
    [null]/[undefined] batch is ignored altogether. *)
Theorem handleBatch_never_rejects (env : Collaborators) (s : Watcher) :
  (forall r, fst (handleBatch env r s) = Ok tt) /\
  (forall m, handleBatch env (Throw m) s
             = (Ok tt, set_trace s (trace s ++ [EStderr ("Error handling event: " ++ m)%string]))) /\
  handleBatch env (Ok None) s = (Ok tt, s).
Proof.
  split; [|split; [intros m|]]; [|reflexivity|reflexivity].
  intros r; unfold handleBatch, try_catch.
  destruct (bind _ _ s) as [[[]|e] s']; reflexivity.
Qed.

(** When [esbuildManager.updateContexts] rejects on a batch with extension
    events, the handler has replaced the app snapshot, the context table is
    whatever the manager left of it when it rejected, and the handler writes
    the rejection to stderr and stops: no extension is built, no output is
    removed, no [onEvent] listener is called and the directories are
    unchanged. *)
Theorem handleBatch_update_rejected (env : Collaborators) (ev : AppEvent) (s : Watcher)
  (m : string) (c' : list string)
  (Hne : extensionEvents ev <> [])
  (Hupd : updateContexts_result env ev (contexts s) = (c', Some m)) :
  handleBatch env (Ok (Some ev)) s
  = (Ok tt, set_trace (set_contexts (set_app s (ev_app ev)) c')
                      (trace s ++ [EUpdateContexts ev;
                                   EStderr ("Error handling event: " ++ m)%string])).
Proof.
  unfold handleBatch, try_catch, bind, lift, modify.
  destruct (Nat.eqb (length (extensionEvents ev)) 0) eqn:Hlen.
  - apply Nat.eqb_eq, length_zero_iff_nil in Hlen; contradiction.
  - unfold updateContexts, bind, gets, lift, modify; rewrite record_eq.
    simpl (contexts _); rewrite Hupd; simpl.
    rewrite record_eq; destruct s; simpl; rewrite <- app_assoc; reflexivity.
Qed.

(** On a batch with extension events whose context update succeeds, the
    handler updates the contexts, then calls one build per created or
    updated extension in event order (a rebuild when it has a context in
    the updated table), then one removal per deleted extension in event
    order, then every [onEvent] listener once in registration order; it
    writes nothing to stderr, a build error included.  Afterwards the
    snapshot is the batch's app, the context table the updated one, and a
    directory is present exactly when it was there before or was written by
    the builds, and lies below no removed path. *)
Theorem handleBatch_build_then_purge_then_emit (env : Collaborators) (ev : AppEvent)
  (s : Watcher) (c : list string)
  (Hne : extensionEvents ev <> [])
  (Hupd : updateContexts_result env ev (contexts s) = (c, None)) :
  let path := fun ext => joinPath (buildOutputPath s) (outputFolderId ext) in
  let written := flat_map (build_writes env c (buildOutputPath s)) (created_or_updated ev) in
  let s' := snd (handleBatch env (Ok (Some ev)) s) in
  trace s' = trace s ++ [EUpdateContexts ev] ++
             map (build_effect c) (created_or_updated ev) ++
             map (fun ext => ERmdir (path ext)) (deleted ev) ++
             map (fun l => ECallAll l ev) (all_listeners s) /\
  built_handles (trace s') = built_handles (trace s) ++ map handle (created_or_updated ev) /\
  (forall msg, In (EStderr msg) (trace s') -> In (EStderr msg) (trace s)) /\
  app s' = ev_app ev /\ contexts s' = c /\
  (forall q, In q (fs s') <->
             (In q (fs s) \/ In q written) /\
             forall ext, In ext (deleted ev) -> under (path ext) q = false).
Proof.
  intros path written s'; subst s' written.
  rewrite (handleBatch_nonempty_eq env ev s c Hne Hupd); simpl.
  assert (Htr : trace s ++ [EUpdateContexts ev] ++ map (build_effect c) (created_or_updated ev) ++
                map (fun ext => ERmdir (path ext)) (deleted ev) ++
                map (fun l => ECallAll l ev) (all_listeners s)
                = ((((trace s ++ [EUpdateContexts ev]) ++ map (build_effect c) (created_or_updated ev)) ++
                    map ERmdir (map (fun ext => joinPath (buildOutputPath s) (outputFolderId ext))
                                    (deleted ev))) ++
                   map (fun l => ECallAll l ev) (all_listeners s))).
  { rewrite map_map, <- !app_assoc; reflexivity. }
  rewrite <- Htr; clear Htr.
  split; [reflexivity|]; split.
  - rewrite !built_handles_app, built_handles_build_effects.
    assert (Hr : forall xs : list ExtensionInstance,
                 built_handles (map (fun ext => ERmdir (path ext)) xs) = []).
    { induction xs; [reflexivity|]; exact IHxs. }
    assert (Hc : forall ls : list nat, built_handles (map (fun l => ECallAll l ev) ls) = []).
    { induction ls; [reflexivity|]; exact IHls. }
    rewrite Hr, Hc, !app_nil_r; reflexivity.
  - split; [|split; [reflexivity|split; [reflexivity|]]].
    + intros msg Hin.
      repeat (apply in_app_or in Hin as [Hin|Hin]; [try exact Hin|]);
        try (apply in_map_iff in Hin as (x & Hx & _));
        try (unfold build_effect in Hx; destruct (live c x));
        try discriminate; simpl in Hin; intuition discriminate.
    + intros q; rewrite filter_In, kept_iff; simpl; rewrite add_dirs_In; split.
      * intros [Hq Hk]; split; [exact Hq|]; intros ext Hext; apply Hk, in_map_iff.
        exists ext; split; [reflexivity | exact Hext].
      * intros [Hq Hk]; split; [exact Hq|]; intros p Hp.
        apply in_map_iff in Hp as (ext & <- & Hext); apply Hk, Hext.
Qed.

(** [buildExtensions] makes one call per extension, in input order:
    [rebuild()] for an extension with a live esbuild context,
    [buildForBundle] otherwise; the directories only gain those these
    builds write, and nothing else of the watcher changes. *)
Theorem buildExtensions_one_call_each (env : Collaborators) (exts : list ExtensionInstance)
  (s : Watcher) :
  snd (buildExtensions env exts s)
  = set_fs (set_trace s (trace s ++ map (fun ext => if live (contexts s) ext
                                                    then ERebuild (handle ext)
                                                    else EBuildForBundle (handle ext)) exts))
           (add_dirs (flat_map (build_writes env (contexts s) (buildOutputPath s)) exts) (fs s)).
Proof. rewrite buildExtensions_eq; reflexivity. Qed.
(** ** Witnesses: the theorems with hypotheses applied to concrete inputs *)

Lemma buildExtensions_error_beside_ok_witness :
  buildForBundle_result sample_env extX = Some "boom" /\
  exists results s',
    buildExtensions sample_env [extX; extY] sample_watcher = (Ok results, s') /\
    In (BuildError "boom" (handle extX)) results /\
    In (BuildOk (handle extY)) results.
Proof.
  split; [reflexivity|].
  apply (buildExtensions_error_beside_ok sample_env [extX; extY] sample_watcher extX extY).
  - left; reflexivity.
  - right; left; reflexivity.
  - reflexivity.
  - reflexivity.
  - left; split; reflexivity.
Defined.

Lemma handleBatch_created_updated_deleted_witness :
  updateContexts_result sample_env batch_cud (contexts sample_watcher) = ([], None) /\
  let pathC := joinPath (buildOutputPath sample_watcher) (outputFolderId extC) in
  let written := build_writes sample_env [] (buildOutputPath sample_watcher) extA ++
                 build_writes sample_env [] (buildOutputPath sample_watcher) extB in
  exists s' (before after : list Effect),
    handleBatch sample_env (Ok (Some batch_cud)) sample_watcher = (Ok tt, s') /\
    trace s' = trace sample_watcher ++ before ++ after /\
    built_handles before = [handle extA; handle extB] /\
    removed_dirs before = [pathC] /\
    all_calls before = [] /\
    after = map (fun l => ECallAll l batch_cud) (all_listeners sample_watcher) /\
    extensionEvents batch_cud = [mkExtensionEvent Created extA; mkExtensionEvent Updated extB;
                                 mkExtensionEvent Deleted extC] /\
    (forall q, In q (fs s') <-> (In q (fs sample_watcher) \/ In q written) /\ under pathC q = false).
Proof.
  split; [reflexivity|].
  apply (handleBatch_created_updated_deleted sample_env batch_cud sample_watcher extA extB extC []).
  - reflexivity.
  - reflexivity.
Defined.

Lemma handleBatch_no_events_witness :
  extensionEvents batch_empty = [] /\
  handleBatch sample_env (Ok (Some batch_empty)) ready_watcher
  = (Ok tt, set_trace (set_app ready_watcher (ev_app batch_empty))
                      (trace ready_watcher ++ [EOutputDebug no_extensions_msg])).
Proof.
  split; [reflexivity|].
  apply (handleBatch_no_events sample_env batch_empty ready_watcher).
  reflexivity.
Defined.

Lemma onStart_after_ready_invoked_witness :
  ready ready_watcher = true /\
  exists calls,
    trace (snd (onStart 2 ready_watcher)) = trace ready_watcher ++ calls /\
    In (ECallReady 2) calls.
Proof.
  split; [vm_compute; reflexivity|].
  apply (onStart_after_ready_invoked 2 ready_watcher).
  vm_compute; reflexivity.
Defined.

Lemma onStart_after_ready_reemits_to_all_witness :
  ready ready_watcher = true /\
  trace (snd (onStart 2 ready_watcher))
  = trace ready_watcher ++ map ECallReady (ready_listeners ready_watcher) ++ [ECallReady 2] /\
  ready_listeners (snd (onStart 2 ready_watcher)) = ready_listeners ready_watcher ++ [2].
Proof.
  split; [vm_compute; reflexivity|].
  apply (onStart_after_ready_reemits_to_all 2 ready_watcher).
  vm_compute; reflexivity.
Defined.


Lemma start_failure_never_ready_witness :
  createContexts_result failing_env (filter isESBuildExtension (realExtensions sample_app))
    = Throw "esbuild failed to start" /\
  let s := run failing_env [OpOnStart 1; OpStart; OpResumeStart; OpStart; OpResumeStart;
                            OpBatch (Ok (Some batch_cud))]
               (new_watcher sample_app None start_disk) in
  ready s = false /\ watching s = false /\ app s = sample_app /\
  Forall (fun e => passive e = true) (trace s).
Proof.
  split; [reflexivity|].
  apply (start_failure_never_ready failing_env sample_app None start_disk _ "esbuild failed to start").
  reflexivity.
Defined.

Lemma handleBatch_update_rejected_witness :
  extensionEvents batch_cud <> [] /\
  updateContexts_result failing_env batch_cud (contexts ready_watcher)
    = ([], Some "esbuild failed to update") /\
  handleBatch failing_env (Ok (Some batch_cud)) ready_watcher
  = (Ok tt, set_trace (set_contexts (set_app ready_watcher (ev_app batch_cud)) [])
                      (trace ready_watcher ++ [EUpdateContexts batch_cud;
                                               EStderr ("Error handling event: " ++ "esbuild failed to update")%string])).
Proof.
  assert (Hne : extensionEvents batch_cud <> []) by discriminate.
  assert (Hupd : updateContexts_result failing_env batch_cud (contexts ready_watcher)
                 = ([], Some "esbuild failed to update")) by reflexivity.
  split; [exact Hne|]; split; [exact Hupd|].
  exact (handleBatch_update_rejected failing_env batch_cud ready_watcher _ _ Hne Hupd).
Defined.

Lemma handleBatch_build_then_purge_then_emit_witness :
  extensionEvents batch_cud <> [] /\
  updateContexts_result sample_env batch_cud (contexts ready_watcher) = (["b"], None) /\
  let path := fun ext => joinPath (buildOutputPath ready_watcher) (outputFolderId ext) in
  let written := flat_map (build_writes sample_env ["b"] (buildOutputPath ready_watcher))
                          (created_or_updated batch_cud) in
  let s' := snd (handleBatch sample_env (Ok (Some batch_cud)) ready_watcher) in
  trace s' = trace ready_watcher ++ [EUpdateContexts batch_cud] ++
             map (build_effect ["b"]) (created_or_updated batch_cud) ++
             map (fun ext => ERmdir (path ext)) (deleted batch_cud) ++
             map (fun l => ECallAll l batch_cud) (all_listeners ready_watcher) /\
  built_handles (trace s') = built_handles (trace ready_watcher) ++ map handle (created_or_updated batch_cud) /\
  (forall msg, In (EStderr msg) (trace s') -> In (EStderr msg) (trace ready_watcher)) /\
  app s' = ev_app batch_cud /\ contexts s' = ["b"] /\
  (forall q, In q (fs s') <->
             (In q (fs ready_watcher) \/ In q written) /\
             forall ext, In ext (deleted batch_cud) -> under (path ext) q = false).
Proof.
  assert (Hne : extensionEvents batch_cud <> []) by discriminate.
  assert (Hupd : updateContexts_result sample_env batch_cud (contexts ready_watcher) = (["b"], None))
    by (vm_compute; reflexivity).
  split; [exact Hne|]; split; [exact Hupd|].
  exact (handleBatch_build_then_purge_then_emit sample_env batch_cud ready_watcher ["b"] Hne Hupd).
Defined.

